(** * OpenAI plugin settings registration (settings.py)

    A shallow embedding of [OpenAISettings]: the three property
    dictionaries, their serialisation with [json.dumps], and the
    constructor that registers one group and three settings with the
    host's settings store, raising on the first rejected call. *)

From Stdlib Require Import String Ascii List ZArith Lia Bool DecimalString.
From Stdlib Require Import DecimalPos DecimalZ.
Import ListNotations.
Local Open Scope list_scope.
Local Open Scope string_scope.

(** ** Python values and [json.dumps] *)

Module Json.

(** The Python values that occur in the property dictionaries.  A dict
    keeps its insertion order, so it is an association list. *)
#[warnings="-register-all"]
Inductive pyval : Type :=
| PyStr (s : string)
| PyInt (z : Z)
| PyList (l : list pyval)
| PyDict (l : list (string * pyval)).

(** [d.get(key)] on an association list: the first binding wins, as a
    dict literal has no duplicate keys here. *)
Fixpoint dict_get (key : string) (d : list (string * pyval)) : option pyval :=
  match d with
  | [] => None
  | (k, v) :: rest => if String.eqb k key then Some v else dict_get key rest
  end.

Definition get (key : string) (v : pyval) : option pyval :=
  match v with
  | PyDict d => dict_get key d
  | _ => None
  end.

Definition dquote : ascii := "034"%char.
Definition backslash : ascii := "092"%char.

Definition hex_digit (n : nat) : ascii :=
  match n with
  | 0 => "0" | 1 => "1" | 2 => "2" | 3 => "3" | 4 => "4"
  | 5 => "5" | 6 => "6" | 7 => "7" | 8 => "8" | 9 => "9"
  | 10 => "a" | 11 => "b" | 12 => "c" | 13 => "d" | 14 => "e"
  | _ => "f"
  end%char.

(** ['\\u{0:04x}'.format(n)] for a code point below 256. *)
Definition unicode_escape (n : nat) : string :=
  String backslash
    (String "u" (String "0" (String "0"
       (String (hex_digit (n / 16)) (String (hex_digit (n mod 16)) ""))))).

(** One character of [py_encode_basestring_ascii]: the short escapes of
    [ESCAPE_DCT], the printable range [' '..'~'] unchanged, everything
    else as a [\uXXXX] escape. *)
Definition escape_char (c : ascii) : string :=
  let n := nat_of_ascii c in
  if Nat.eqb n 34 then String backslash (String dquote "")
  else if Nat.eqb n 92 then String backslash (String backslash "")
  else if Nat.eqb n 8 then String backslash "b"
  else if Nat.eqb n 12 then String backslash "f"
  else if Nat.eqb n 10 then String backslash "n"
  else if Nat.eqb n 13 then String backslash "r"
  else if Nat.eqb n 9 then String backslash "t"
  else if (Nat.leb 32 n && Nat.leb n 126)%bool then String c ""
  else unicode_escape n.

Fixpoint escape (s : string) : string :=
  match s with
  | EmptyString => ""
  | String c rest => escape_char c ++ escape rest
  end.

Definition encode_str (s : string) : string :=
  String dquote (escape s ++ String dquote "").

(** [', '.join(parts)] *)
Fixpoint join (sep : string) (parts : list string) : string :=
  match parts with
  | [] => ""
  | [p] => p
  | p :: rest => p ++ sep ++ join sep rest
  end.

Definition encode_int (z : Z) : string := NilZero.string_of_int (Z.to_int z).

(** [json.dumps(v)] with the default separators and [ensure_ascii]. *)
Fixpoint dumps (v : pyval) : string :=
  match v with
  | PyStr s => encode_str s
  | PyInt z => encode_int z
  | PyList l => "[" ++ join ", " (map dumps l) ++ "]"
  | PyDict d =>
      "{" ++ join ", "
               (map (fun kv => match kv with
                               | (k, x) => encode_str k ++ ": " ++ dumps x
                               end) d)
          ++ "}"
  end.

Section PyvalInduction.

Variable P : pyval -> Prop.
Hypothesis HStr : forall s, P (PyStr s).
Hypothesis HInt : forall z, P (PyInt z).
Hypothesis HList : forall l, Forall P l -> P (PyList l).
Hypothesis HDict : forall d, Forall (fun kv => P (snd kv)) d -> P (PyDict d).

(** Induction over a value together with everything nested in it. *)
Fixpoint pyval_nested_ind (v : pyval) : P v :=
  match v with
  | PyStr s => HStr s
  | PyInt z => HInt z
  | PyList l =>
      HList l
        ((fix items (l : list pyval) : Forall P l :=
            match l with
            | [] => Forall_nil P
            | x :: rest => Forall_cons x (pyval_nested_ind x) (items rest)
            end) l)
  | PyDict d =>
      HDict d
        ((fix items (d : list (string * pyval)) :
            Forall (fun kv => P (snd kv)) d :=
            match d with
            | [] => Forall_nil _
            | (k, x) :: rest =>
                Forall_cons (k, x) (pyval_nested_ind x) (items rest)
            end) d)
  end.

End PyvalInduction.

End Json.

(** ** The host's settings store *)

Module Host.

(** Modelled from the spec: the module [exceptions] of the plugin, which
    declares the two exception classes raised by the constructor; each
    carries its message. *)
Inductive exception : Type :=
| RegisterSettingsGroupException (msg : string)
| RegisterSettingsKeyException (msg : string).

Definition message (e : exception) : string :=
  match e with
  | RegisterSettingsGroupException m => m
  | RegisterSettingsKeyException m => m
  end.

(** The two calls of [binaryninja.settings.Settings] the plugin makes,
    each on the store selected by the object's instance identifier. *)
Inductive call : Type :=
| register_group_call (instance_id group title : string)
| register_setting_call (instance_id key properties : string).

(** A computation that talks to the host: it returns, raises, or makes a
    host call and continues with the boolean the host answers. *)
Inductive prog (A : Type) : Type :=
| Ret (a : A)
| Raise (e : exception)
| Ask (c : call) (k : bool -> prog A).

Arguments Ret {A} a.
Arguments Raise {A} e.
Arguments Ask {A} c k.

Fixpoint bind {A B : Type} (p : prog A) (f : A -> prog B) : prog B :=
  match p with
  | Ret a => f a
  | Raise e => Raise e
  | Ask c k => Ask c (fun b => bind (k b) f)
  end.

Inductive outcome (A : Type) : Type :=
| Returned (a : A)
| Raised (e : exception).

Arguments Returned {A} a.
Arguments Raised {A} e.

(** What a run leaves behind: every call with the answer it got, oldest
    first. *)
Definition trace : Type := list (call * bool).

Definition calls (t : trace) : list call := map fst t.
Definition answers (t : trace) : list bool := map snd t.

Section Run.

Variable store : Type.
Variable host : call -> store -> bool * store.

(** Run a computation against a host, threading the host's state. *)
Fixpoint run {A : Type} (p : prog A) (s : store) : outcome A * trace * store :=
  match p with
  | Ret a => (Returned a, [], s)
  | Raise e => (Raised e, [], s)
  | Ask c k =>
      let (b, s1) := host c s in
      match run (k b) s1 with
      | (o, t, s2) => (o, (c, b) :: t, s2)
      end
  end.

Definition result {A : Type} (p : prog A) (s : store) : outcome A :=
  fst (fst (run p s)).

Definition log {A : Type} (p : prog A) (s : store) : trace :=
  snd (fst (run p s)).

End Run.

Arguments run {store} host {A} p s.
Arguments result {store} host {A} p s.
Arguments log {store} host {A} p s.

(** A host that answers from a script, and [true] once it is used up. *)
Definition scripted (c : call) (s : list bool) : bool * list bool :=
  match s with
  | [] => (true, [])
  | b :: rest => (b, rest)
  end.

End Host.

Declare Scope prog_scope.
Delimit Scope prog_scope with prog.
Notation "x <- p ;; q" := (Host.bind p (fun x => q))
  (at level 61, p at next level, right associativity) : prog_scope.

(** ** settings.py *)

Module Settings.

(** The part of the host's [Settings] object the plugin relies on. *)
Record t : Type := mk { instance_id : string }.

(** [Settings.__init__(instance_id)] *)
Definition __init__ (instance_id : string) : t := mk instance_id.

Definition register_group (self : t) (group title : string) : Host.prog bool :=
  Host.Ask (Host.register_group_call (instance_id self) group title) Host.Ret.

Definition register_setting (self : t) (key properties : string) : Host.prog bool :=
  Host.Ask (Host.register_setting_call (instance_id self) key properties) Host.Ret.

End Settings.

Module OpenAISettings.

Import Json Host.
Local Open Scope prog_scope.

(** The local [properties] of [register_api_key_settings]. *)
Definition api_key_properties : pyval :=
  PyDict
    [ ("title", PyStr "OpenAI API Key");
      ("type", PyStr "string");
      ("description", PyStr ("The user's OpenAI API key used to make requests "
                             ++ "the server.")) ].

(** Register the OpenAI API key settings in Binary Ninja. *)
Definition register_api_key_settings (self : Settings.t) : prog bool :=
  Settings.register_setting self "openai.api_key" (dumps api_key_properties).

(** The local [properties] of [register_model_settings].  Adjacent string
    literals are one string in Python; they are written with [++] here,
    where the source has them. *)
Definition model_properties : pyval :=
  PyDict
    [ ("title", PyStr "OpenAI Model");
      ("type", PyStr "string");
      ("description", PyStr "The OpenAI model used to generate the response.");
      ("enum", PyList
         [ PyStr "gpt-4";
           PyStr "gpt-4-32k";
           PyStr "gpt-3.5-turbo";
           PyStr "text-davinci-003";
           PyStr "text-davinci-002";
           PyStr "text-curie-001";
           PyStr "text-babbage-001";
           PyStr "text-babbage-002";
           PyStr "code-davinci-002";
           PyStr "code-cushman-001" ]);
      ("enumDescriptions", PyList
         [ PyStr "More capable than any GPT-3.5 model, able to do more complex tasks, and optimized for chat. Will be updated with our latest model iteration.";
           PyStr "Same capabilities as the base gpt-4 mode but with 4x the context length. Will be updated with our latest model iteration.";
           PyStr "Most capable GPT-3.5 model and optimized for chat at 1/10th the cost of text-davinci-003. Will be updated with our latest model iteration.";
           PyStr "Can do any language task with better quality, longer output, and consistent instruction-following than the curie, babbage, or ada models.";
           PyStr ("Similar capabilities to text-davinci-003 but trained with supervised fine-tuning instead of reinforcement learning"
                  ++ "Very capable, but faster and lower cost than Davinci.");
           PyStr "Capable of straightforward tasks, very fast, and lower cost.";
           PyStr "Capable of very simple tasks, usually the fastest model in the GPT-3 series, and lowest cost.";
           PyStr "Most capable Codex model. Particularly good at translating natural language to code. In addition to completing code, also supports inserting completions within code.";
           PyStr "Almost as capable as Davinci Codex, but slightly faster. This speed advantage may make it preferable for real-time applications." ]);
      ("default", PyStr "gpt-3.5-turbo") ].

(** Register the OpenAI model settings in Binary Ninja. *)
Definition register_model_settings (self : Settings.t) : prog bool :=
  Settings.register_setting self "openai.model" (dumps model_properties).

(** The local [properties] of [register_max_tokens]. *)
Definition max_tokens_properties : pyval :=
  PyDict
    [ ("title", PyStr "OpenAI Max Completion Tokens");
      ("type", PyStr "number");
      ("description", PyStr "The maximum number of tokens used for completion. Tokens do not necessarily align with word or instruction count. Typically, each token is four characters. If your function is very large, you may need to decrease this value, as the number of tokens in your prompt counts against the total number of tokens supported by the model. Not all models support the same number of maximum tokens; most support 2,048 tokens. For larger functions, check out text-davinci-003 and code-davinci-002 which support 4,000 and 8,000 respectively. For the maximum amount of tokens, check out gpt-4-32k which supports up to 32,768 tokens. This may be costly, however.");
      ("default", PyInt 1024);
      ("minValue", PyInt 1);
      ("maxValue", PyInt 32768);
      ("message", PyStr "Min: 1, Max: 32,768") ].

(** Register the OpenAI max tokens used for both the prompt and
    completion. *)
Definition register_max_tokens (self : Settings.t) : prog bool :=
  Settings.register_setting self "openai.max_tokens" (dumps max_tokens_properties).

(** [OpenAISettings.__init__]: every [if not ...: raise ...] ends the
    construction; otherwise the next registration follows. *)
Definition __init__ : prog Settings.t :=
  let self := Settings.__init__ "default" in
  ok <- Settings.register_group self "openai" "OpenAI" ;;
  if negb ok then
    Raise (RegisterSettingsGroupException ("Failed to register OpenAI "
                                           ++ "settings group."))
  else
  ok <- register_api_key_settings self ;;
  if negb ok then
    Raise (RegisterSettingsKeyException ("Failed to register OpenAI API "
                                         ++ "key settings."))
  else
  ok <- register_model_settings self ;;
  if negb ok then
    Raise (RegisterSettingsKeyException ("Failed to register OpenAI "
                                         ++ "model settings."))
  else
  ok <- register_max_tokens self ;;
  if negb ok then
    Raise (RegisterSettingsKeyException ("Failed to register OpenAI "
                                         ++ "max tokens settings."))
  else
  Ret self.

End OpenAISettings.

(** ** Vocabulary of the statements *)

Module Obs.

Import Json Host OpenAISettings.

(** [needle in hay] on Python strings. *)
Fixpoint contains (needle hay : string) : bool :=
  (String.prefix needle hay
   || match hay with
      | EmptyString => false
      | String _ rest => contains needle rest
      end)%bool.

Definition is_group_call (c : call) : bool :=
  match c with
  | register_group_call _ _ _ => true
  | register_setting_call _ _ _ => false
  end.

Definition is_setting_call (c : call) : bool := negb (is_group_call c).

(** The key a [register_setting] call was given. *)
Definition call_key (c : call) : option string :=
  match c with
  | register_group_call _ _ _ => None
  | register_setting_call _ key _ => Some key
  end.

Definition has_key (key : string) (c : call) : bool :=
  match call_key c with
  | Some k => String.eqb k key
  | None => false
  end.

(** The Python list stored under [key], if there is one. *)
Definition list_field (key : string) (v : pyval) : option (list pyval) :=
  match get key v with
  | Some (PyList l) => Some l
  | _ => None
  end.

(** The Python int stored under [key], if there is one. *)
Definition int_field (key : string) (v : pyval) : option Z :=
  match get key v with
  | Some (PyInt z) => Some z
  | _ => None
  end.

(** The four calls the constructor can make, as it writes them. *)
Definition group_call : call := register_group_call "default" "openai" "OpenAI".
Definition api_key_call : call :=
  register_setting_call "default" "openai.api_key" (dumps api_key_properties).
Definition model_call : call :=
  register_setting_call "default" "openai.model" (dumps model_properties).
Definition max_tokens_call : call :=
  register_setting_call "default" "openai.max_tokens" (dumps max_tokens_properties).

Definition group_error : exception :=
  RegisterSettingsGroupException "Failed to register OpenAI settings group.".
Definition api_key_error : exception :=
  RegisterSettingsKeyException "Failed to register OpenAI API key settings.".
Definition model_error : exception :=
  RegisterSettingsKeyException "Failed to register OpenAI model settings.".
Definition max_tokens_error : exception :=
  RegisterSettingsKeyException "Failed to register OpenAI max tokens settings.".

Definition is_key_error (e : exception) : bool :=
  match e with
  | RegisterSettingsKeyException _ => true
  | RegisterSettingsGroupException _ => false
  end.

(** A stateless host that accepts groups and rejects every setting. *)
Definition groups_only (c : call) (u : unit) : bool * unit :=
  (is_group_call c, u).

(** The store instance a call is made on. *)
Definition call_instance (c : call) : string :=
  match c with
  | register_group_call i _ _ => i
  | register_setting_call i _ _ => i
  end.

(** A call inside the plugin's own name space: the group openai itself,
    or a setting whose key starts with the group name and a dot. *)
Definition in_openai_group (c : call) : bool :=
  match c with
  | register_group_call _ group title =>
      (String.eqb group "openai" && String.eqb title "OpenAI")%bool
  | register_setting_call _ key _ => String.prefix "openai." key
  end.

(** How many calls of a log the host rejected. *)
Definition count_rejected (t : trace) : nat :=
  length (filter (fun cb => negb (snd cb)) t).

Definition has_raised {A : Type} (o : outcome A) : bool :=
  match o with
  | Raised _ => true
  | Returned _ => false
  end.

(** The exception the constructor raises for a rejected call. *)
Definition error_for (c : call) : exception :=
  match c with
  | register_group_call _ _ _ => group_error
  | register_setting_call _ key _ =>
      if String.eqb key "openai.api_key" then api_key_error
      else if String.eqb key "openai.model" then model_error
      else max_tokens_error
  end.

(** The printable ASCII range, [' '] to ['~']. *)
Definition printable (c : ascii) : bool :=
  (Nat.leb 32 (nat_of_ascii c) && Nat.leb (nat_of_ascii c) 126)%bool.

(** A character [json.dumps] writes as it is. *)
Definition plain_char (c : ascii) : bool :=
  (printable c && negb (Ascii.eqb c dquote) && negb (Ascii.eqb c backslash))%bool.

Fixpoint all_chars (p : ascii -> bool) (s : string) : bool :=
  match s with
  | EmptyString => true
  | String c rest => (p c && all_chars p rest)%bool
  end.

(** The body of a JSON string literal read from the left: a backslash
    takes the next character with it, and a double quote on its own
    would end the literal. *)
Fixpoint well_escaped (s : string) : bool :=
  match s with
  | EmptyString => true
  | String c rest =>
      if Ascii.eqb c backslash then
        match rest with
        | EmptyString => false
        | String _ rest' => well_escaped rest'
        end
      else if Ascii.eqb c dquote then false
      else well_escaped rest
  end.

(** The keys of a dict, in insertion order. *)
Definition keys (v : pyval) : list string :=
  match v with
  | PyDict d => map fst d
  | _ => []
  end.

(** Reading a JSON string body back, for strings over the code points
    below 256 that [string] holds: the value of a hexadecimal digit, the
    character behind a one-letter escape, and the reader itself.  A
    [\uXXXX] escape is read with all its four digits; the reader gives
    up on a bare double quote or control character, on an unknown or
    cut-off escape, and on an escape for a code point from 256 on. *)
Definition hex_value (c : ascii) : option nat :=
  let n := nat_of_ascii c in
  if (Nat.leb 48 n && Nat.leb n 57)%bool then Some (n - 48)
  else if (Nat.leb 97 n && Nat.leb n 102)%bool then Some (n - 87)
  else if (Nat.leb 65 n && Nat.leb n 70)%bool then Some (n - 55)
  else None.

Definition short_escape (c : ascii) : option ascii :=
  if Ascii.eqb c dquote then Some dquote
  else if Ascii.eqb c backslash then Some backslash
  else if Ascii.eqb c "/" then Some "/"%char
  else if Ascii.eqb c "b" then Some "008"%char
  else if Ascii.eqb c "f" then Some "012"%char
  else if Ascii.eqb c "n" then Some "010"%char
  else if Ascii.eqb c "r" then Some "013"%char
  else if Ascii.eqb c "t" then Some "009"%char
  else None.

Definition code_point (h1 h2 h3 h4 : ascii) : option nat :=
  match hex_value h1, hex_value h2, hex_value h3, hex_value h4 with
  | Some a, Some b, Some c, Some d => Some (4096 * a + 256 * b + 16 * c + d)
  | _, _, _, _ => None
  end.

Definition cons_char (c : option ascii) (s : option string) : option string :=
  match c, s with
  | Some c, Some s => Some (String c s)
  | _, _ => None
  end.

Fixpoint unescape (s : string) : option string :=
  match s with
  | EmptyString => Some EmptyString
  | String c rest =>
      if Ascii.eqb c backslash then
        match rest with
        | EmptyString => None
        | String e rest1 =>
            if Ascii.eqb e "u" then
              match rest1 with
              | String h1 (String h2 (String h3 (String h4 rest2))) =>
                  match code_point h1 h2 h3 h4 with
                  | Some n =>
                      if Nat.ltb n 256
                      then cons_char (Some (ascii_of_nat n)) (unescape rest2)
                      else None
                  | None => None
                  end
              | _ => None
              end
            else cons_char (short_escape e) (unescape rest1)
        end
      else if Ascii.eqb c dquote then None
      else if Nat.ltb (nat_of_ascii c) 32 then None
      else cons_char (Some c) (unescape rest)
  end.

(** The longest decimal text CPython writes for an int by default
    ([sys.int_info.default_max_str_digits]); [json.dumps] raises
    [ValueError] on an int with more digits. *)
Definition int_max_str_digits : Z := 4300.

(** The properties string a [register_setting] call was given. *)
Definition call_properties (c : call) : option string :=
  match c with
  | register_group_call _ _ _ => None
  | register_setting_call _ _ properties => Some properties
  end.

(** A computation whose calls do not depend on anything met at run
    time: whatever the two hosts and their answers, the calls made at
    the same position of two runs are the same call. *)
Definition fixed_payloads {A : Type} (p : prog A) : Prop :=
  forall (store1 : Type) (host1 : call -> store1 -> bool * store1) (s1 : store1)
         (store2 : Type) (host2 : call -> store2 -> bool * store2) (s2 : store2)
         (i : nat) (c1 c2 : call),
    nth_error (calls (log host1 p s1)) i = Some c1 ->
    nth_error (calls (log host2 p s2)) i = Some c2 ->
    c1 = c2.

(** For contrast, a computation that picks its second call by the first
    answer; the constructor is not of this kind. *)
Definition answer_dependent : prog unit :=
  Ask group_call
      (fun b => Ask (if b then api_key_call else model_call)
                    (fun _ => Ret tt)).

(** Reading back a decimal number. *)
Definition decode_int (s : string) : option Z :=
  option_map Z.of_int (NilZero.int_of_string s).

(** The five ways a construction can go, with the log each leaves. *)
Inductive init_run : outcome Settings.t -> trace -> Prop :=
| group_rejected :
    init_run (Raised group_error) [(group_call, false)]
| api_key_rejected :
    init_run (Raised api_key_error) [(group_call, true); (api_key_call, false)]
| model_rejected :
    init_run (Raised model_error)
             [(group_call, true); (api_key_call, true); (model_call, false)]
| max_tokens_rejected :
    init_run (Raised max_tokens_error)
             [(group_call, true); (api_key_call, true); (model_call, true);
              (max_tokens_call, false)]
| all_accepted :
    init_run (Returned (Settings.__init__ "default"))
             [(group_call, true); (api_key_call, true); (model_call, true);
              (max_tokens_call, true)].

End Obs.

(** ** Results *)

Import Json Host OpenAISettings Obs.

Example dumps_small :
  dumps (PyDict [("a", PyInt 1); ("b", PyList [PyStr "x\y"; PyInt (-20)])])
  = "{" ++ encode_str "a" ++ ": 1, " ++ encode_str "b" ++ ": ["
        ++ String dquote ("x\\y" ++ String dquote "") ++ ", -20]}".
Proof. reflexivity. Qed.

Example escape_controls :
  escape (String "010" (String "127" (String "001" "'~ ")))
  = "\n\u007f\u0001'~ ".
Proof. reflexivity. Qed.

Lemma init_unfold :
  __init__ =
  Ask group_call (fun b1 =>
    if negb b1 then Raise group_error else
    Ask api_key_call (fun b2 =>
      if negb b2 then Raise api_key_error else
      Ask model_call (fun b3 =>
        if negb b3 then Raise model_error else
        Ask max_tokens_call (fun b4 =>
          if negb b4 then Raise max_tokens_error else
          Ret (Settings.__init__ "default"))))).
Proof. reflexivity. Qed.

Lemma run_ask {store : Type} (host : call -> store -> bool * store)
      {A : Type} (c : call) (k : bool -> prog A) (s : store) :
  run host (Ask c k) s =
  (fst (fst (run host (k (fst (host c s))) (snd (host c s)))),
   (c, fst (host c s)) :: snd (fst (run host (k (fst (host c s))) (snd (host c s)))),
   snd (run host (k (fst (host c s))) (snd (host c s)))).
Proof.
  cbn [run]. destruct (host c s) as [b s1]. cbn [fst snd].
  destruct (run host (k b) s1) as [[o t] s2]. reflexivity.
Qed.

(** Every construction, against every host, goes one of the five ways. *)
Lemma run_init {store : Type} (host : call -> store -> bool * store) (s : store) :
  init_run (result host __init__ s) (log host __init__ s).
Proof.
  unfold result, log. rewrite init_unfold.
  rewrite run_ask.
  destruct (host group_call s) as [[|] s1]; cbn [fst snd negb];
    [|cbn [run fst snd]; constructor].
  rewrite run_ask.
  destruct (host api_key_call s1) as [[|] s2]; cbn [fst snd negb];
    [|cbn [run fst snd]; constructor].
  rewrite run_ask.
  destruct (host model_call s2) as [[|] s3]; cbn [fst snd negb];
    [|cbn [run fst snd]; constructor].
  rewrite run_ask.
  destruct (host max_tokens_call s3) as [[|] s4]; cbn [fst snd negb run];
    constructor.
Qed.

Lemma all_calls_distinct :
  NoDup [group_call; api_key_call; model_call; max_tokens_call].
Proof.
  apply (NoDup_map_inv call_key). cbn [map call_key group_call api_key_call
    model_call max_tokens_call].
  repeat constructor; cbn [In]; intuition discriminate.
Qed.

Lemma NoDup_prefix {A : Type} (l1 l2 : list A) :
  NoDup (l1 ++ l2)%list -> NoDup l1.
Proof.
  induction l1 as [|a l1 IH]; cbn; intro N.
  - constructor.
  - inversion N as [|x l Hnotin Hrest]; subst. constructor.
    + intro Hin. apply Hnotin. apply in_or_app. now left.
    + now apply IH.
Qed.

(** No construction makes the same call twice. *)
Lemma init_calls_distinct {store : Type} (host : call -> store -> bool * store)
      (s : store) :
  NoDup (calls (log host __init__ s)).
Proof.
  pose proof (run_init host s) as R.
  set (o := result host __init__ s) in *. set (t := log host __init__ s) in *.
  clearbody o t. pose proof all_calls_distinct as N.
  destruct R; cbn [calls map fst]; try exact N.
  - apply (NoDup_prefix [group_call] [api_key_call; model_call; max_tokens_call] N).
  - apply (NoDup_prefix [group_call; api_key_call] [model_call; max_tokens_call] N).
  - apply (NoDup_prefix [group_call; api_key_call; model_call] [max_tokens_call] N).
Qed.

(** C1 (refuted on the code): in the properties registered for the model
    setting, [enum] has ten entries and [enumDescriptions] only nine: the
    fifth description is two adjacent literals run together, so the last
    [enum] entry has no description at its index and the lengths differ. *)
Theorem model_enum_descriptions_misaligned :
  exists e d,
    list_field "enum" model_properties = Some e /\
    list_field "enumDescriptions" model_properties = Some d /\
    length e = 10 /\ length d = 9 /\ length e <> length d /\
    nth_error e 9 = Some (PyStr "code-cushman-001") /\ nth_error d 9 = None /\
    nth_error d 4 =
      Some (PyStr ("Similar capabilities to text-davinci-003 but trained with supervised fine-tuning instead of reinforcement learning"
                   ++ "Very capable, but faster and lower cost than Davinci.")).
Proof.
  eexists. eexists.
  split; [reflexivity|]. split; [reflexivity|].
  cbn [length nth_error]. repeat split; try reflexivity. discriminate.
Qed.

(** C2: the [enum] list registered for the model setting is exactly the
    ten model names gpt-4, gpt-4-32k, gpt-3.5-turbo, text-davinci-003,
    text-davinci-002, text-curie-001, text-babbage-001, text-babbage-002,
    code-davinci-002, code-cushman-001, in this order, and it is this
    dictionary that [register_model_settings] serialises for the key
    openai.model. *)
Theorem model_enum_exact :
  list_field "enum" model_properties =
    Some (map PyStr
            [ "gpt-4"; "gpt-4-32k"; "gpt-3.5-turbo"; "text-davinci-003";
              "text-davinci-002"; "text-curie-001"; "text-babbage-001";
              "text-babbage-002"; "code-davinci-002"; "code-cushman-001" ]) /\
  option_map (@length pyval) (list_field "enum" model_properties) = Some 10 /\
  (forall self,
     register_model_settings self =
     Settings.register_setting self "openai.model" (dumps model_properties)) /\
  contains
    (encode_str "enum" ++ ": ["
       ++ join ", " (map encode_str
            [ "gpt-4"; "gpt-4-32k"; "gpt-3.5-turbo"; "text-davinci-003";
              "text-davinci-002"; "text-curie-001"; "text-babbage-001";
              "text-babbage-002"; "code-davinci-002"; "code-cushman-001" ])
       ++ "], ")
    (dumps model_properties) = true.
Proof.
  split; [reflexivity|]. split; [reflexivity|]. split; [reflexivity|].
  vm_compute. reflexivity.
Qed.

(** C3: the [default] registered for the model setting is gpt-3.5-turbo,
    and that value is a member of the setting's own [enum] list; the
    dictionary that holds both is the one [register_model_settings]
    serialises and hands to the host under the key openai.model, and the
    text the host receives carries the default and the enum entry. *)
Theorem model_default_in_enum :
  get "default" model_properties = Some (PyStr "gpt-3.5-turbo") /\
  (exists e,
    list_field "enum" model_properties = Some e /\
    In (PyStr "gpt-3.5-turbo") e /\
    nth_error e 2 = get "default" model_properties) /\
  (forall self,
     register_model_settings self =
     Settings.register_setting self "openai.model" (dumps model_properties)) /\
  (forall (self : Settings.t) (store : Type)
          (host : call -> store -> bool * store) (s : store),
     calls (log host (register_model_settings self) s)
     = [register_setting_call (Settings.instance_id self) "openai.model"
                              (dumps model_properties)]) /\
  (forall (store : Type) (host : call -> store -> bool * store) (s : store)
          (c : call),
     In c (calls (log host __init__ s)) ->
     has_key "openai.model" c = true ->
     call_properties c = Some (dumps model_properties)) /\
  contains (encode_str "default" ++ ": " ++ encode_str "gpt-3.5-turbo" ++ "}")
           (dumps model_properties) = true /\
  contains (encode_str "enum" ++ ": [" ++ encode_str "gpt-4" ++ ", "
              ++ encode_str "gpt-4-32k" ++ ", " ++ encode_str "gpt-3.5-turbo"
              ++ ", ")
           (dumps model_properties) = true.
Proof.
  split; [reflexivity|].
  split.
  { eexists. split; [reflexivity|].
    split; [|reflexivity]. cbn [In]. right. right. left. reflexivity. }
  split; [reflexivity|].
  split.
  { intros self store host s. unfold register_model_settings,
      Settings.register_setting, log.
    rewrite run_ask. reflexivity. }
  split.
  { intros store host s c Hin Hkey.
    pose proof (run_init host s) as R.
    set (o := result host __init__ s) in *. set (t := log host __init__ s) in *.
    clearbody o t.
    destruct R; cbn [calls map fst In] in Hin;
      repeat (destruct Hin as [Hin|Hin]; [subst c|]);
      try contradiction; try discriminate Hkey; reflexivity. }
  split; vm_compute; reflexivity.
Qed.

(** C4: the properties registered for openai.max_tokens have type
    number, default 1024, minValue 1, maxValue 32768 and the message
    "Min: 1, Max: 32,768"; the default lies within the two bounds, and
    the serialised object carries the same numbers. *)
Theorem max_tokens_properties_exact :
  get "type" max_tokens_properties = Some (PyStr "number") /\
  get "message" max_tokens_properties = Some (PyStr "Min: 1, Max: 32,768") /\
  (exists d lo hi,
     int_field "default" max_tokens_properties = Some d /\
     int_field "minValue" max_tokens_properties = Some lo /\
     int_field "maxValue" max_tokens_properties = Some hi /\
     d = 1024 /\ lo = 1 /\ hi = 32768 /\ lo <= d <= hi)%Z /\
  (forall self,
     register_max_tokens self =
     Settings.register_setting self "openai.max_tokens"
                               (dumps max_tokens_properties)) /\
  contains
    (encode_str "default" ++ ": 1024, " ++ encode_str "minValue" ++ ": 1, "
       ++ encode_str "maxValue" ++ ": 32768, " ++ encode_str "message" ++ ": "
       ++ encode_str "Min: 1, Max: 32,768" ++ "}")
    (dumps max_tokens_properties) = true.
Proof.
  split; [reflexivity|]. split; [reflexivity|].
  split.
  { exists 1024%Z, 1%Z, 32768%Z. repeat (split; [reflexivity|]). lia. }
  split; [reflexivity|]. vm_compute. reflexivity.
Qed.

(** C8: each of the three registration methods passes the host exactly
    its group-qualified dotted name as key: openai.api_key, openai.model
    and openai.max_tokens, that is the group name, a dot and the
    setting's own name. *)
Theorem setting_keys_qualified :
  forall (self : Settings.t) (store : Type)
         (host : call -> store -> bool * store) (s : store),
    map call_key (calls (log host (register_api_key_settings self) s))
      = [Some "openai.api_key"] /\
    map call_key (calls (log host (register_model_settings self) s))
      = [Some "openai.model"] /\
    map call_key (calls (log host (register_max_tokens self) s))
      = [Some "openai.max_tokens"] /\
    "openai.api_key" = "openai" ++ "." ++ "api_key" /\
    "openai.model" = "openai" ++ "." ++ "model" /\
    "openai.max_tokens" = "openai" ++ "." ++ "max_tokens" /\
    map call_key [api_key_call; model_call; max_tokens_call]
      = [Some "openai.api_key"; Some "openai.model"; Some "openai.max_tokens"].
Proof.
  intros self store host s.
  unfold register_api_key_settings, register_model_settings,
    register_max_tokens, Settings.register_setting, log.
  rewrite !run_ask. cbn [run fst snd calls map call_key].
  repeat split; reflexivity.
Qed.

(** C5: in every run of the constructor in which the host rejects the
    group registration, the constructor raises the group exception and
    the log holds the group call alone: no setting is ever registered. *)
Theorem group_failure_raises :
  forall (store : Type) (host : call -> store -> bool * store) (s : store),
    (forall c b, In (c, b) (log host __init__ s) ->
                 is_group_call c = true -> b = false) ->
    result host __init__ s
      = Raised (RegisterSettingsGroupException
                  "Failed to register OpenAI settings group.") /\
    calls (log host __init__ s) = [group_call] /\
    (forall c, In c (calls (log host __init__ s)) -> is_setting_call c = false) /\
    (forall key c, In c (calls (log host __init__ s)) -> has_key key c = false).
Proof.
  intros store host s Hfail.
  pose proof (run_init host s) as R.
  set (o := result host __init__ s) in *. set (t := log host __init__ s) in *.
  clearbody o t.
  destruct R;
    try (specialize (Hfail group_call true (or_introl eq_refl) eq_refl);
         discriminate).
  cbn [calls map fst]. split; [reflexivity|]. split; [reflexivity|].
  split; intros; cbn [In] in *; intuition (subst; reflexivity).
Qed.

(** C6: in every run in which the group registration succeeds and the
    registration of openai.api_key is rejected, the constructor raises
    the key exception whose message names the API key, and neither the
    model nor the max-tokens registration is ever called. *)
Theorem api_key_failure_raises :
  forall (store : Type) (host : call -> store -> bool * store) (s : store),
    (forall c b, In (c, b) (log host __init__ s) ->
                 is_group_call c = true -> b = true) ->
    (forall c b, In (c, b) (log host __init__ s) ->
                 has_key "openai.api_key" c = true -> b = false) ->
    result host __init__ s
      = Raised (RegisterSettingsKeyException
                  "Failed to register OpenAI API key settings.") /\
    contains "API key" "Failed to register OpenAI API key settings." = true /\
    calls (log host __init__ s) = [group_call; api_key_call] /\
    (forall c, In c (calls (log host __init__ s)) ->
               has_key "openai.model" c = false /\
               has_key "openai.max_tokens" c = false).
Proof.
  intros store host s Hgroup Hkey.
  pose proof (run_init host s) as R.
  set (o := result host __init__ s) in *. set (t := log host __init__ s) in *.
  clearbody o t.
  destruct R;
    try (specialize (Hgroup group_call false (or_introl eq_refl) eq_refl);
         discriminate);
    try (specialize (Hkey api_key_call true (or_intror (or_introl eq_refl))
                          eq_refl);
         discriminate).
  cbn [calls map fst]. split; [reflexivity|]. split; [reflexivity|].
  split; [reflexivity|].
  intros c Hin. cbn [In] in Hin.
  destruct Hin as [<-|[<-|[]]]; split; reflexivity.
Qed.

(** C7: in every run in which the host accepts every call, the
    constructor returns the object without raising, and the calls made
    are exactly the group, api_key, model and max_tokens registrations,
    once each and in this order. *)
Theorem all_success_returns :
  forall (store : Type) (host : call -> store -> bool * store) (s : store),
    (forall c b, In (c, b) (log host __init__ s) -> b = true) ->
    result host __init__ s = Returned (Settings.__init__ "default") /\
    calls (log host __init__ s)
      = [group_call; api_key_call; model_call; max_tokens_call] /\
    NoDup (calls (log host __init__ s)) /\
    map call_key (calls (log host __init__ s))
      = [None; Some "openai.api_key"; Some "openai.model";
         Some "openai.max_tokens"].
Proof.
  intros store host s Hok.
  pose proof (init_calls_distinct host s) as N.
  pose proof (run_init host s) as R.
  set (o := result host __init__ s) in *. set (t := log host __init__ s) in *.
  clearbody o t.
  destruct R;
    try (exfalso;
         match type of Hok with
         | forall c b, In (c, b) ?l -> _ =>
             match l with
             | context [(?c0, false)] =>
                 assert (E : false = true)
                   by (apply (Hok c0); cbn [In]; tauto);
                 discriminate E
             end
         end).
  repeat split; try reflexivity. exact N.
Qed.

(** C9: whenever a registration call of the constructor is rejected, the
    constructor raises at once: the rejected call is the last one in the
    log and every call before it was accepted, no call occurs twice in
    the log, a rejected setting raises the key exception, and the
    message names the model when the model registration was the rejected
    one and the max tokens when the max-tokens registration was. *)
Theorem failure_aborts_at_once :
  forall (store : Type) (host : call -> store -> bool * store) (s : store)
         (c : call),
    In (c, false) (log host __init__ s) ->
    (exists e, result host __init__ s = Raised e /\
               (is_setting_call c = true -> is_key_error e = true)) /\
    (exists before,
        log host __init__ s = (before ++ [(c, false)])%list /\
        forall c' b, In (c', b) before -> b = true) /\
    NoDup (calls (log host __init__ s)) /\
    (has_key "openai.model" c = true ->
       result host __init__ s
         = Raised (RegisterSettingsKeyException
                     "Failed to register OpenAI model settings.") /\
       contains "model" "Failed to register OpenAI model settings." = true) /\
    (has_key "openai.max_tokens" c = true ->
       result host __init__ s
         = Raised (RegisterSettingsKeyException
                     "Failed to register OpenAI max tokens settings.") /\
       contains "max tokens" "Failed to register OpenAI max tokens settings."
         = true).
Proof.
  intros store host s c Hin.
  pose proof (init_calls_distinct host s) as N.
  pose proof (run_init host s) as R.
  set (o := result host __init__ s) in *. set (t := log host __init__ s) in *.
  clearbody o t.
  destruct R; cbn [In] in Hin;
    repeat (destruct Hin as [Hin|Hin]; [try discriminate Hin|]);
    try contradiction;
    injection Hin as <-.
  - split; [eexists; split; [reflexivity|discriminate]|].
    split; [exists []; split; [reflexivity|intros ? ? []]|].
    split; [exact N|]. split; discriminate.
  - split; [eexists; split; [reflexivity|reflexivity]|].
    split.
    { exists [(group_call, true)]. split; [reflexivity|].
      intros c' b Hb. cbn [In] in Hb. intuition congruence. }
    split; [exact N|]. split; discriminate.
  - split; [eexists; split; [reflexivity|reflexivity]|].
    split.
    { exists [(group_call, true); (api_key_call, true)]. split; [reflexivity|].
      intros c' b Hb. cbn [In] in Hb. intuition congruence. }
    split; [exact N|]. split; [intros _; split; reflexivity|discriminate].
  - split; [eexists; split; [reflexivity|reflexivity]|].
    split.
    { exists [(group_call, true); (api_key_call, true); (model_call, true)].
      split; [reflexivity|].
      intros c' b Hb. cbn [In] in Hb. intuition congruence. }
    split; [exact N|]. split; [discriminate|intros _; split; reflexivity].
Qed.

Lemma init_calls_prefix {store : Type} (host : call -> store -> bool * store)
      (s : store) :
  exists n,
    calls (log host __init__ s)
    = firstn n [group_call; api_key_call; model_call; max_tokens_call].
Proof.
  pose proof (run_init host s) as R.
  set (o := result host __init__ s) in *. set (t := log host __init__ s) in *.
  clearbody o t.
  destruct R; cbn [calls map fst];
    [now exists 1|now exists 2|now exists 3|now exists 4|now exists 4].
Qed.

Lemma nth_error_firstn_some {A : Type} (n i : nat) (l : list A) (a : A) :
  nth_error (firstn n l) i = Some a -> nth_error l i = Some a.
Proof.
  revert i l. induction n as [|n IH]; intros i l H.
  - destruct i; discriminate H.
  - destruct l as [|x l]; [destruct i; discriminate H|].
    destruct i as [|i]; cbn [firstn nth_error] in H |- *; [exact H|].
    now apply IH.
Qed.

(** The call made at a given position of a run is the entry of one
    fixed table at that position. *)
Lemma init_call_at {store : Type} (host : call -> store -> bool * store)
      (s : store) (i : nat) (c : call) :
  nth_error (calls (log host __init__ s)) i = Some c ->
  nth_error [group_call; api_key_call; model_call; max_tokens_call] i = Some c.
Proof.
  destruct (init_calls_prefix host s) as [n ->]. apply nth_error_firstn_some.
Qed.

(** Not every computation has fixed payloads: it is a property of the
    constructor, which the contrast case lacks. *)
Lemma answer_dependent_not_fixed : ~ fixed_payloads answer_dependent.
Proof.
  intro F.
  specialize (F (list bool) scripted [true] (list bool) scripted [false]
                1 api_key_call model_call eq_refl eq_refl).
  discriminate F.
Qed.

(** C10: two runs of the constructor in which the hosts give the same
    sequence of answers make the same sequence of calls, with the same
    key strings and the same serialised properties, and end the same
    way.  The payloads are fixed constants: whatever the two hosts,
    their states and their answers, the calls at the same position of
    two runs are equal and are the entry of one fixed table of four
    closed calls; and the key and the properties text a registration
    method passes do not depend on the object it is called on. *)
Theorem init_deterministic :
  forall (store1 : Type) (host1 : call -> store1 -> bool * store1) (s1 : store1)
         (store2 : Type) (host2 : call -> store2 -> bool * store2) (s2 : store2),
    (answers (log host1 __init__ s1) = answers (log host2 __init__ s2) ->
     calls (log host1 __init__ s1) = calls (log host2 __init__ s2) /\
     log host1 __init__ s1 = log host2 __init__ s2 /\
     result host1 __init__ s1 = result host2 __init__ s2) /\
    (exists n,
      calls (log host1 __init__ s1)
        = firstn n [group_call; api_key_call; model_call; max_tokens_call]) /\
    fixed_payloads __init__ /\
    (forall i c1 c2,
       nth_error (calls (log host1 __init__ s1)) i = Some c1 ->
       nth_error (calls (log host2 __init__ s2)) i = Some c2 ->
       c1 = c2 /\
       nth_error [group_call; api_key_call; model_call; max_tokens_call] i
         = Some c1) /\
    (forall self1 self2 : Settings.t,
       map call_key (calls (log host1 (register_api_key_settings self1) s1))
         = map call_key (calls (log host2 (register_api_key_settings self2) s2)) /\
       map call_properties (calls (log host1 (register_api_key_settings self1) s1))
         = map call_properties
               (calls (log host2 (register_api_key_settings self2) s2)) /\
       map call_key (calls (log host1 (register_model_settings self1) s1))
         = map call_key (calls (log host2 (register_model_settings self2) s2)) /\
       map call_properties (calls (log host1 (register_model_settings self1) s1))
         = map call_properties
               (calls (log host2 (register_model_settings self2) s2)) /\
       map call_key (calls (log host1 (register_max_tokens self1) s1))
         = map call_key (calls (log host2 (register_max_tokens self2) s2)) /\
       map call_properties (calls (log host1 (register_max_tokens self1) s1))
         = map call_properties
               (calls (log host2 (register_max_tokens self2) s2))).
Proof.
  intros store1 host1 s1 store2 host2 s2.
  split.
  { intro Hans.
    pose proof (run_init host1 s1) as R1. pose proof (run_init host2 s2) as R2.
    set (o1 := result host1 __init__ s1) in *.
    set (t1 := log host1 __init__ s1) in *.
    set (o2 := result host2 __init__ s2) in *.
    set (t2 := log host2 __init__ s2) in *.
    clearbody o1 t1 o2 t2.
    destruct R1; destruct R2; cbn [answers map snd] in Hans;
      try discriminate Hans; repeat split; reflexivity. }
  split; [apply init_calls_prefix|].
  split.
  { intros st1 h1 x1 st2 h2 x2 i c1 c2 H1 H2.
    apply init_call_at in H1. apply init_call_at in H2. congruence. }
  split.
  { intros i c1 c2 H1 H2.
    apply init_call_at in H1. apply init_call_at in H2.
    split; [congruence|exact H1]. }
  intros self1 self2.
  unfold register_api_key_settings, register_model_settings,
    register_max_tokens, Settings.register_setting, log.
  rewrite !run_ask. cbn [run fst snd calls map call_key call_properties].
  repeat split; reflexivity.
Qed.

(** ** The statements at concrete hosts *)

Lemma log_scripted_reject_group :
  log scripted __init__ [false] = [(group_call, false)].
Proof. reflexivity. Qed.

Lemma log_scripted_reject_api_key :
  log scripted __init__ [true; false; true]
  = [(group_call, true); (api_key_call, false)].
Proof. reflexivity. Qed.

Lemma log_scripted_reject_model :
  log scripted __init__ [true; true; false]
  = [(group_call, true); (api_key_call, true); (model_call, false)].
Proof. reflexivity. Qed.

Lemma log_scripted_accept :
  log scripted __init__ []
  = [(group_call, true); (api_key_call, true); (model_call, true);
     (max_tokens_call, true)].
Proof. reflexivity. Qed.

Lemma log_groups_only :
  log groups_only __init__ tt = [(group_call, true); (api_key_call, false)].
Proof. reflexivity. Qed.

(** C5 at a host whose first answer is a rejection. *)
Lemma group_failure_raises_witness :
  (forall c b, In (c, b) (log scripted __init__ [false]) ->
               is_group_call c = true -> b = false) /\
  result scripted __init__ [false] = Raised group_error /\
  calls (log scripted __init__ [false]) = [group_call].
Proof.
  assert (H : forall c b, In (c, b) (log scripted __init__ [false]) ->
                          is_group_call c = true -> b = false).
  { intros c b Hin _. rewrite log_scripted_reject_group in Hin.
    destruct Hin as [Hin|[]]. injection Hin as _ <-. reflexivity. }
  split; [exact H|].
  destruct (group_failure_raises (list bool) scripted [false] H)
    as (Hres & Hcalls & _).
  split; [exact Hres|exact Hcalls].
Defined.

(** C6 at a host that accepts the group and rejects the API key. *)
Lemma api_key_failure_raises_witness :
  (forall c b, In (c, b) (log scripted __init__ [true; false; true]) ->
               is_group_call c = true -> b = true) /\
  (forall c b, In (c, b) (log scripted __init__ [true; false; true]) ->
               has_key "openai.api_key" c = true -> b = false) /\
  result scripted __init__ [true; false; true] = Raised api_key_error /\
  calls (log scripted __init__ [true; false; true]) = [group_call; api_key_call].
Proof.
  assert (Hg : forall c b, In (c, b) (log scripted __init__ [true; false; true]) ->
                           is_group_call c = true -> b = true).
  { intros c b Hin Hc. rewrite log_scripted_reject_api_key in Hin.
    destruct Hin as [Hin|[Hin|[]]]; injection Hin as <- <-.
    - reflexivity.
    - discriminate Hc. }
  assert (Hk : forall c b, In (c, b) (log scripted __init__ [true; false; true]) ->
                           has_key "openai.api_key" c = true -> b = false).
  { intros c b Hin Hc. rewrite log_scripted_reject_api_key in Hin.
    destruct Hin as [Hin|[Hin|[]]]; injection Hin as <- <-.
    - discriminate Hc.
    - reflexivity. }
  split; [exact Hg|]. split; [exact Hk|].
  destruct (api_key_failure_raises (list bool) scripted [true; false; true] Hg Hk)
    as (Hres & _ & Hcalls & _).
  split; [exact Hres|exact Hcalls].
Defined.

(** C7 at a host that accepts everything. *)
Lemma all_success_returns_witness :
  (forall c b, In (c, b) (log scripted __init__ []) -> b = true) /\
  result scripted __init__ [] = Returned (Settings.__init__ "default") /\
  calls (log scripted __init__ [])
    = [group_call; api_key_call; model_call; max_tokens_call].
Proof.
  assert (H : forall c b, In (c, b) (log scripted __init__ []) -> b = true).
  { intros c b Hin. rewrite log_scripted_accept in Hin. cbn [In] in Hin.
    destruct Hin as [Hin|[Hin|[Hin|[Hin|[]]]]]; injection Hin as _ <-;
      reflexivity. }
  split; [exact H|].
  destruct (all_success_returns (list bool) scripted [] H) as (Hres & Hcalls & _).
  split; [exact Hres|exact Hcalls].
Defined.

(** C9 at a host that rejects the model registration. *)
Lemma failure_aborts_at_once_witness :
  In (model_call, false) (log scripted __init__ [true; true; false]) /\
  result scripted __init__ [true; true; false]
    = Raised (RegisterSettingsKeyException
                "Failed to register OpenAI model settings.") /\
  NoDup (calls (log scripted __init__ [true; true; false])).
Proof.
  assert (H : In (model_call, false) (log scripted __init__ [true; true; false])).
  { rewrite log_scripted_reject_model. cbn [In]. right. right. left.
    reflexivity. }
  split; [exact H|].
  destruct (failure_aborts_at_once (list bool) scripted [true; true; false]
                                   model_call H)
    as (_ & _ & Hnodup & Hmodel & _).
  split; [exact (proj1 (Hmodel eq_refl))|exact Hnodup].
Defined.

(** C10 at two different hosts that give the same answers. *)
Lemma init_deterministic_witness :
  answers (log scripted __init__ [true; false; true])
    = answers (log groups_only __init__ tt) /\
  calls (log scripted __init__ [true; false; true])
    = calls (log groups_only __init__ tt) /\
  result scripted __init__ [true; false; true]
    = result groups_only __init__ tt.
Proof.
  assert (H : answers (log scripted __init__ [true; false; true])
              = answers (log groups_only __init__ tt)).
  { rewrite log_scripted_reject_api_key, log_groups_only. reflexivity. }
  split; [exact H|].
  destruct (init_deterministic (list bool) scripted [true; false; true]
                               unit groups_only tt)
    as (Hdet & _).
  destruct (Hdet H) as (Hcalls & _ & Hres).
  split; [exact Hcalls|exact Hres].
Defined.

(** ** Further properties of the constructor *)

(** X1: the constructor returns exactly when the host accepted four
    calls in a row; the object it returns is then the one bound to the
    instance [default], and the log holds all four registrations. *)
Theorem init_returns_iff_all_accepted :
  forall (store : Type) (host : call -> store -> bool * store) (s : store),
    (has_raised (result host __init__ s) = false <->
     answers (log host __init__ s) = [true; true; true; true]) /\
    (has_raised (result host __init__ s) = false ->
     result host __init__ s = Returned (Settings.mk "default") /\
     log host __init__ s
       = [(group_call, true); (api_key_call, true); (model_call, true);
          (max_tokens_call, true)]) /\
    (has_raised (result host __init__ s) = true <->
     In false (answers (log host __init__ s))).
Proof.
  intros store host s.
  pose proof (run_init host s) as R.
  set (o := result host __init__ s) in *. set (t := log host __init__ s) in *.
  clearbody o t.
  destruct R; cbn [has_raised answers map snd In];
    (split; [split; intro H; (discriminate H || reflexivity)|]);
    (split; [intro H; (discriminate H || (split; reflexivity))|]);
    split; intro H; try reflexivity; try discriminate H; try tauto.
  intuition discriminate.
Qed.

(** X2: when the constructor raises, the last call of the log is the
    rejected one, everything before it was accepted, and the exception
    is the one that belongs to that call: the group exception for the
    group call, a key exception for a setting. *)
Theorem raised_exception_matches_rejected_call :
  forall (store : Type) (host : call -> store -> bool * store) (s : store)
         (e : exception),
    result host __init__ s = Raised e ->
    exists before c,
      log host __init__ s = (before ++ [(c, false)])%list /\
      forallb snd before = true /\
      e = error_for c /\
      is_key_error e = is_setting_call c /\
      In c [group_call; api_key_call; model_call; max_tokens_call].
Proof.
  intros store host s e Hres.
  pose proof (run_init host s) as R.
  set (o := result host __init__ s) in *. set (t := log host __init__ s) in *.
  clearbody o t.
  destruct R; try discriminate Hres; injection Hres as <-.
  - exists [], group_call. cbn [In]. repeat split; auto.
  - exists [(group_call, true)], api_key_call. cbn [In]. repeat split; auto.
  - exists [(group_call, true); (api_key_call, true)], model_call.
    cbn [In]. repeat split; auto.
  - exists [(group_call, true); (api_key_call, true); (model_call, true)],
      max_tokens_call.
    cbn [In]. repeat split; auto.
Qed.

(** X3: the exception alone tells what happened: two runs, against any
    two hosts, that raise the same exception have made the same calls
    and got the same answers. *)
Theorem same_exception_same_log :
  forall (store1 : Type) (host1 : call -> store1 -> bool * store1) (s1 : store1)
         (store2 : Type) (host2 : call -> store2 -> bool * store2) (s2 : store2)
         (e : exception),
    result host1 __init__ s1 = Raised e ->
    result host2 __init__ s2 = Raised e ->
    log host1 __init__ s1 = log host2 __init__ s2.
Proof.
  intros store1 host1 s1 store2 host2 s2 e H1 H2.
  pose proof (run_init host1 s1) as R1. pose proof (run_init host2 s2) as R2.
  set (o1 := result host1 __init__ s1) in *.
  set (t1 := log host1 __init__ s1) in *.
  set (o2 := result host2 __init__ s2) in *.
  set (t2 := log host2 __init__ s2) in *.
  clearbody o1 t1 o2 t2.
  destruct R1; try discriminate H1; injection H1 as <-;
    destruct R2; try discriminate H2; reflexivity.
Qed.

(** X4: a setting is only ever registered after its predecessors were
    accepted: the log always starts with the group call; any setting
    call in it comes after an accepted group call, the model call after
    an accepted API key call, the max-tokens call after an accepted
    model call. *)
Theorem setting_calls_follow_accepted_predecessors :
  forall (store : Type) (host : call -> store -> bool * store) (s : store)
         (c : call) (b : bool),
    In (c, b) (log host __init__ s) ->
    hd_error (calls (log host __init__ s)) = Some group_call /\
    (is_setting_call c = true -> In (group_call, true) (log host __init__ s)) /\
    (has_key "openai.model" c = true ->
       In (api_key_call, true) (log host __init__ s)) /\
    (has_key "openai.max_tokens" c = true ->
       In (model_call, true) (log host __init__ s) /\
       In (api_key_call, true) (log host __init__ s)).
Proof.
  intros store host s c b Hin.
  pose proof (run_init host s) as R.
  set (o := result host __init__ s) in *. set (t := log host __init__ s) in *.
  clearbody o t.
  destruct R; cbn [In] in Hin |- *;
    (split; [reflexivity|]);
    repeat (destruct Hin as [Hin|Hin]; [injection Hin as <- <-|]);
    try contradiction;
    (split; [intro H; (discriminate H || tauto)|]);
    (split; intro H; (discriminate H || tauto)).
Qed.

(** X5: every run makes between one and four calls, at most one of them
    is rejected, and the constructor raises exactly when one is; the
    accepted calls are all the others. *)
Theorem at_most_one_rejection :
  forall (store : Type) (host : call -> store -> bool * store) (s : store),
    1 <= length (log host __init__ s) <= 4 /\
    count_rejected (log host __init__ s) <= 1 /\
    (has_raised (result host __init__ s) = true <->
     count_rejected (log host __init__ s) = 1) /\
    (has_raised (result host __init__ s) = false <->
     length (log host __init__ s) = 4 /\
     count_rejected (log host __init__ s) = 0).
Proof.
  intros store host s.
  pose proof (run_init host s) as R.
  set (o := result host __init__ s) in *. set (t := log host __init__ s) in *.
  clearbody o t.
  destruct R;
    cbn [has_raised count_rejected filter length snd negb];
    (split; [lia|]); (split; [lia|]);
    split; split; intro H; try reflexivity; try discriminate H;
      try lia; try (split; reflexivity).
Qed.

(** X6: every call of every run is made on the store instance [default]
    and stays inside the plugin's name space: the group is openai with
    the label OpenAI, and every setting key starts with [openai.] and is
    one of the three keys of the plugin. *)
Theorem calls_stay_in_openai_group :
  forall (store : Type) (host : call -> store -> bool * store) (s : store),
    forallb (fun c => String.eqb (call_instance c) "default")
            (calls (log host __init__ s)) = true /\
    forallb in_openai_group (calls (log host __init__ s)) = true /\
    forallb (fun c =>
               is_group_call c || has_key "openai.api_key" c
               || has_key "openai.model" c || has_key "openai.max_tokens" c)%bool
            (calls (log host __init__ s)) = true.
Proof.
  intros store host s.
  pose proof (run_init host s) as R.
  set (o := result host __init__ s) in *. set (t := log host __init__ s) in *.
  clearbody o t.
  destruct R; cbn [calls map fst]; repeat split; reflexivity.
Qed.

(** ** Properties of the serialisation *)

Lemma all_chars_app (p : ascii -> bool) (a b : string) :
  all_chars p (a ++ b) = (all_chars p a && all_chars p b)%bool.
Proof.
  induction a as [|c a IH]; cbn [append all_chars].
  - reflexivity.
  - rewrite IH. now rewrite andb_assoc.
Qed.

Lemma escape_char_printable (c : ascii) :
  all_chars printable (escape_char c) = true.
Proof. destruct c as [[] [] [] [] [] [] [] []]; reflexivity. Qed.

Lemma escape_printable (s : string) : all_chars printable (escape s) = true.
Proof.
  induction s as [|c s IH]; cbn [escape].
  - reflexivity.
  - now rewrite all_chars_app, escape_char_printable, IH.
Qed.

Lemma encode_str_printable (s : string) :
  all_chars printable (encode_str s) = true.
Proof.
  unfold encode_str. cbn [all_chars].
  now rewrite all_chars_app, escape_printable.
Qed.

Lemma string_of_uint_printable (d : Decimal.uint) :
  all_chars printable (NilEmpty.string_of_uint d) = true.
Proof. induction d; cbn [NilEmpty.string_of_uint all_chars]; auto. Qed.

Lemma encode_int_printable (z : Z) : all_chars printable (encode_int z) = true.
Proof.
  unfold encode_int.
  destruct (Z.to_int z) as [d|d]; cbn [NilZero.string_of_int all_chars];
    destruct d; try reflexivity;
    apply (string_of_uint_printable (_ d)).
Qed.

Lemma join_printable (parts : list string) :
  Forall (fun p => all_chars printable p = true) parts ->
  all_chars printable (join ", " parts) = true.
Proof.
  induction 1 as [|p rest Hp Hrest IH]; [reflexivity|].
  cbn [join]. destruct rest as [|q rest]; [exact Hp|].
  rewrite !all_chars_app, Hp, IH. reflexivity.
Qed.

(** X8: whatever the value, [json.dumps] writes printable ASCII only:
    no control character, no byte above ['~'] reaches the host in a
    properties string. *)
Theorem dumps_printable_ascii :
  forall v : pyval, all_chars printable (dumps v) = true.
Proof.
  induction v as [s|z|l IH|d IH] using pyval_nested_ind; cbn [dumps].
  - apply encode_str_printable.
  - apply encode_int_printable.
  - cbn [append all_chars printable]. rewrite all_chars_app.
    rewrite join_printable; [reflexivity|].
    apply Forall_map. exact IH.
  - cbn [append all_chars printable]. rewrite all_chars_app.
    rewrite join_printable; [reflexivity|].
    apply Forall_map. apply Forall_forall.
    intros [k x] Hin. rewrite Forall_forall in IH.
    specialize (IH (k, x) Hin). cbn [snd] in IH.
    rewrite all_chars_app, encode_str_printable. cbn [all_chars andb].
    rewrite IH. reflexivity.
Qed.

Lemma well_escaped_escape_char (c : ascii) (rest : string) :
  well_escaped (escape_char c ++ rest) = well_escaped rest.
Proof. destruct c as [[] [] [] [] [] [] [] []]; reflexivity. Qed.

Lemma unescape_escape_char (c : ascii) (rest : string) :
  unescape (escape_char c ++ rest) = cons_char (Some c) (unescape rest).
Proof. destruct c as [[] [] [] [] [] [] [] []]; reflexivity. Qed.

Lemma append_assoc (a b c : string) : (a ++ b) ++ c = a ++ (b ++ c).
Proof. induction a as [|x a IH]; cbn [append]; [reflexivity|now rewrite IH]. Qed.

(** X9: the body [json.dumps] writes for a string can never end its own
    literal: read from the left, every double quote in it follows a
    backslash that escapes it, and the reading stops exactly where the
    body stops, whatever text comes after. *)
Theorem escape_keeps_literal_closed :
  forall s rest : string,
    well_escaped (escape s ++ rest) = well_escaped rest /\
    well_escaped (escape s) = true.
Proof.
  assert (H : forall s rest, well_escaped (escape s ++ rest) = well_escaped rest).
  { induction s as [|c s IH]; intro rest; cbn [escape append].
    - reflexivity.
    - now rewrite append_assoc, well_escaped_escape_char. }
  intros s rest. split; [apply H|].
  specialize (H s ""). cbn [well_escaped] in H. rewrite <- H.
  f_equal. clear H. induction (escape s) as [|c e IH]; cbn [append];
    [reflexivity|now rewrite <- IH].
Qed.

(** X10: for strings over code points below 256 (the strings of this
    embedding, which cover every string of the program), nothing is
    lost when a string is serialised: reading the escaped body back,
    each [\uXXXX] escape with its four digits, gives the string, so two
    different such strings never get the same JSON text. *)
Theorem escape_round_trip :
  forall s : string,
    unescape (escape s) = Some s /\
    forall s' : string, encode_str s = encode_str s' <-> s = s'.
Proof.
  assert (H : forall s, unescape (escape s) = Some s).
  { induction s as [|c s IH]; cbn [escape]; [reflexivity|].
    now rewrite unescape_escape_char, IH. }
  assert (A : forall a b c : string, a ++ c = b ++ c -> a = b).
  { intros a b c E.
    assert (L : forall x y : string, String.length (x ++ y)
                                     = String.length x + String.length y).
    { induction x as [|h x IHx]; intro y; cbn [append String.length];
        [reflexivity|now rewrite IHx]. }
    revert b E. induction a as [|x a IHa]; intros [|y b] E; cbn [append] in E.
    - reflexivity.
    - apply (f_equal String.length) in E. cbn [String.length] in E.
      rewrite L in E. lia.
    - apply (f_equal String.length) in E. cbn [String.length] in E.
      rewrite L in E. lia.
    - injection E as -> E. f_equal. now apply IHa. }
  intro s. split; [apply H|].
  intro s'. split; [|now intros ->].
  unfold encode_str. intro E. injection E as E. apply A in E.
  assert (E' : Some s = Some s') by (rewrite <- (H s), <- (H s'); now rewrite E).
  now injection E'.
Qed.

Lemma escape_plain_char (c : ascii) :
  plain_char c = true -> escape_char c = String c "".
Proof.
  destruct c as [[] [] [] [] [] [] [] []]; intro H;
    (discriminate H || reflexivity).
Qed.

(** X11: a string made of printable ASCII without double quote and
    backslash is written as it is, between two double quotes. *)
Theorem plain_string_written_verbatim :
  forall s : string,
    all_chars plain_char s = true ->
    escape s = s /\ encode_str s = String dquote (s ++ String dquote "").
Proof.
  intros s H.
  assert (E : escape s = s).
  { induction s as [|c s IH]; cbn [escape]; [reflexivity|].
    cbn [all_chars] in H. apply andb_prop in H as [Hc Hs].
    rewrite (escape_plain_char c Hc), (IH Hs). reflexivity. }
  split; [exact E|]. unfold encode_str. now rewrite E.
Qed.

(** X12: an int of at most 4300 decimal digits, the longest CPython
    writes by default, survives serialisation: [json.dumps] writes it
    as a decimal text that reads back as the same int, so two different
    such ints never get the same text. *)
Theorem encode_int_round_trip :
  forall z : Z,
    (Z.abs z < 10 ^ int_max_str_digits)%Z ->
    decode_int (encode_int z) = Some z /\
    forall z' : Z,
      (Z.abs z' < 10 ^ int_max_str_digits)%Z ->
      (encode_int z = encode_int z' <-> z = z').
Proof.
  assert (H : forall z, decode_int (encode_int z) = Some z).
  { intro z. unfold decode_int, encode_int.
    rewrite NilZero.isi.
    - cbn [option_map]. now rewrite DecimalZ.of_to.
    - destruct z as [|p|p]; cbn; try discriminate.
      intro E. injection E as E. now apply DecimalPos.Unsigned.to_uint_nonnil in E.
    - destruct z as [|p|p]; cbn; try discriminate.
      intro E. injection E as E. now apply DecimalPos.Unsigned.to_uint_nonnil in E. }
  intros z _. split; [apply H|].
  intros z' _. split; [|now intros ->].
  intro E. apply (f_equal decode_int) in E. rewrite !H in E. now injection E.
Qed.

(** X13: the properties registered for openai.api_key have exactly the
    three fields title, type and description: the type is string, and
    there is no default, no enum and no bound; the text handed to the
    host is the JSON object of these three fields, in this order. *)
Theorem api_key_properties_exact :
  keys api_key_properties = ["title"; "type"; "description"] /\
  get "title" api_key_properties = Some (PyStr "OpenAI API Key") /\
  get "type" api_key_properties = Some (PyStr "string") /\
  get "description" api_key_properties
    = Some (PyStr "The user's OpenAI API key used to make requests the server.") /\
  get "default" api_key_properties = None /\
  get "enum" api_key_properties = None /\
  get "enumDescriptions" api_key_properties = None /\
  get "minValue" api_key_properties = None /\
  get "maxValue" api_key_properties = None /\
  get "message" api_key_properties = None /\
  (let q := String dquote "" in
   dumps api_key_properties
   = "{" ++ q ++ "title" ++ q ++ ": " ++ q ++ "OpenAI API Key" ++ q ++ ", "
         ++ q ++ "type" ++ q ++ ": " ++ q ++ "string" ++ q ++ ", "
         ++ q ++ "description" ++ q ++ ": " ++ q
         ++ "The user's OpenAI API key used to make requests the server."
         ++ q ++ "}") /\
  (forall self,
     register_api_key_settings self
     = Settings.register_setting self "openai.api_key" (dumps api_key_properties)).
Proof. repeat split; reflexivity. Qed.

(** ** The further statements at concrete hosts *)

(** X2 at a host that rejects the model registration. *)
Lemma raised_exception_matches_rejected_call_witness :
  result scripted __init__ [true; true; false] = Raised model_error /\
  exists before c,
    log scripted __init__ [true; true; false] = (before ++ [(c, false)])%list /\
    forallb snd before = true /\
    model_error = error_for c /\
    is_key_error model_error = is_setting_call c /\
    In c [group_call; api_key_call; model_call; max_tokens_call].
Proof.
  assert (H : result scripted __init__ [true; true; false] = Raised model_error)
    by reflexivity.
  split; [exact H|].
  exact (raised_exception_matches_rejected_call
           (list bool) scripted [true; true; false] model_error H).
Defined.

(** X3 at two hosts that both reject the API key. *)
Lemma same_exception_same_log_witness :
  result scripted __init__ [true; false; true] = Raised api_key_error /\
  result groups_only __init__ tt = Raised api_key_error /\
  log scripted __init__ [true; false; true] = log groups_only __init__ tt.
Proof.
  assert (H1 : result scripted __init__ [true; false; true]
               = Raised api_key_error) by reflexivity.
  assert (H2 : result groups_only __init__ tt = Raised api_key_error)
    by reflexivity.
  split; [exact H1|]. split; [exact H2|].
  exact (same_exception_same_log (list bool) scripted [true; false; true]
                                 unit groups_only tt api_key_error H1 H2).
Defined.

(** X4 at a host that accepts everything, for the max-tokens call. *)
Lemma setting_calls_follow_accepted_predecessors_witness :
  In (max_tokens_call, true) (log scripted __init__ []) /\
  In (model_call, true) (log scripted __init__ []) /\
  In (api_key_call, true) (log scripted __init__ []) /\
  In (group_call, true) (log scripted __init__ []).
Proof.
  assert (H : In (max_tokens_call, true) (log scripted __init__ [])).
  { rewrite log_scripted_accept. cbn [In]. tauto. }
  split; [exact H|].
  destruct (setting_calls_follow_accepted_predecessors
              (list bool) scripted [] max_tokens_call true H)
    as (_ & Hgroup & _ & Hmax).
  split; [exact (proj1 (Hmax eq_refl))|].
  split; [exact (proj2 (Hmax eq_refl))|exact (Hgroup eq_refl)].
Defined.

(** X11 at the description of the API key setting. *)
Lemma plain_string_written_verbatim_witness :
  all_chars plain_char
    "The user's OpenAI API key used to make requests the server." = true /\
  escape "The user's OpenAI API key used to make requests the server."
    = "The user's OpenAI API key used to make requests the server.".
Proof.
  assert (H : all_chars plain_char
                "The user's OpenAI API key used to make requests the server."
              = true) by reflexivity.
  split; [exact H|].
  exact (proj1 (plain_string_written_verbatim _ H)).
Defined.

(** X12 at the three numbers of the max-tokens setting. *)
Lemma encode_int_round_trip_witness :
  (Z.abs 32768 < 10 ^ int_max_str_digits)%Z /\
  decode_int (encode_int 32768) = Some 32768%Z /\
  (encode_int 32768 = encode_int 1024 <-> 32768%Z = 1024%Z).
Proof.
  assert (H : (Z.abs 32768 < 10 ^ int_max_str_digits)%Z) by reflexivity.
  assert (H' : (Z.abs 1024 < 10 ^ int_max_str_digits)%Z) by reflexivity.
  split; [exact H|].
  destruct (encode_int_round_trip 32768%Z H) as (Hback & Hinj).
  split; [exact Hback|exact (Hinj 1024%Z H')].
Defined.
